(** * chart.py: synthetic customer data and its correlation heat map

    A shallow embedding of [src/chart.py].  The script has two parts:
    [generate_synthetic_customer_data], which draws a latent engagement factor
    and nine clipped linear-plus-noise metrics from a seeded numpy generator,
    and [main], which computes the Pearson correlation matrix of the table and
    draws its lower triangle on a fixed canvas saved as [chart.png].

    Conventions of the embedding:
    - float64 values are idealised as exact rationals ([Q]); results that
      involve a square root (the correlation coefficients) live in [R], with
      [None] standing for NaN;
    - every library call of the script (numpy, pandas, seaborn, matplotlib)
      has one definition, written from the documented behaviour of the call;
    - Python exceptions are values of [exn]; a call returns a [result];
    - the numpy generator object is threaded explicitly: [rng.normal] maps a
      generator state to an array and the next state;
    - the bit generator behind [np.random.default_rng] (PCG64) is a parameter
      of the development: a type of states, a seeding function and a function
      producing one standard normal variate. *)

From Stdlib Require Import ZArith QArith Qminmax Reals Lra Lia List String Bool.
From stdpp Require Import base gmap strings.
Import ListNotations.

Local Open Scope Z_scope.
Local Open Scope Q_scope.

(** ** Python values, exceptions and results *)

(** The exceptions the library calls of the script raise. *)
Inductive exn : Type :=
| ValueError
| TypeError
| OSError.

Inductive result (A : Type) : Type :=
| Ok (a : A)
| Raise (e : exn).
Arguments Ok {A} a.
Arguments Raise {A} e.





(** [n_customers] is annotated [int] but Python does not enforce it: the
    argument is any number. *)
Inductive py_number : Type :=
| PyInt (z : Z)
| PyFloat (x : Q).

(** ** numpy arrays (one-dimensional, float64) *)

Definition ndarray : Type := list Q.

Fixpoint map2 {A B C} (f : A -> B -> C) (a : list A) (b : list B) : list C :=
  match a, b with
  | x :: a', y :: b' => f x y :: map2 f a' b'
  | _, _ => []
  end.

(** [c + a] and [c * a] for a Python scalar [c] and an array [a]. *)
Definition scalar_add (c : Q) (a : ndarray) : ndarray := List.map (Qplus c) a.
Definition scalar_mul (c : Q) (a : ndarray) : ndarray := List.map (Qmult c) a.

(** [a + b] for two arrays: numpy broadcasts a length-one operand and raises
    [ValueError] on any other shape mismatch. *)
Definition array_add (a b : ndarray) : result ndarray :=
  if Nat.eqb (length a) (length b) then Ok (map2 Qplus a b)
  else match a, b with
       | [x], _ => Ok (List.map (Qplus x) b)
       | _, [y] => Ok (List.map (fun x => x + y) a)
       | _, _ => Raise ValueError
       end.

(** [np.clip] on one element: [minimum (maximum x a_min) a_max], a bound
    given as [None] being absent. *)
Definition clip1 (a_min a_max : option Q) (x : Q) : Q :=
  let y := match a_min with Some lo => Qmax x lo | None => x end in
  match a_max with Some hi => Qmin y hi | None => y end.

Definition clip (a : ndarray) (a_min a_max : option Q) : ndarray :=
  List.map (clip1 a_min a_max) a.

(** ** pandas data frames *)

(** A frame built from a dict of arrays: the columns in insertion order and
    the common length of the arrays. *)
Record DataFrame : Type := mkDataFrame {
  nrows : nat;
  columns : list (string * ndarray)
}.

(** [pd.DataFrame(dict)]: every array must have the same length. *)
Definition make_DataFrame (d : list (string * ndarray)) : result DataFrame :=
  match d with
  | [] => Ok (mkDataFrame 0 [])
  | (_, a) :: _ =>
      if forallb (fun c => Nat.eqb (length (snd c)) (length a)) d
      then Ok (mkDataFrame (length a) d)
      else Raise ValueError
  end.

Definition column_names (df : DataFrame) : list string :=
  List.map fst (columns df).

Fixpoint assoc (name : string) (cols : list (string * ndarray)) : option ndarray :=
  match cols with
  | [] => None
  | (k, a) :: rest => if String.eqb k name then Some a else assoc name rest
  end.

(** [df[name][i]]: the value of a cell, [None] when the column or the row
    does not exist. *)
Definition cell (df : DataFrame) (name : string) (i : nat) : option Q :=
  match assoc name (columns df) with
  | Some a => nth_error a i
  | None => None
  end.

(** ** The seeded generator *)

Section Generator.

(** State of the bit generator, its initialisation from a non-negative
    seed, and the production of one standard normal variate. *)
Variable bitgen : Type.
Variable seed_bitgen : Z -> bitgen.
Variable next_standard_normal : bitgen -> Q * bitgen.

(** [np.random.default_rng(seed)]: an integer seed must be non-negative. *)
Definition default_rng (seed : Z) : result bitgen :=
  if (seed <? 0)%Z then Raise ValueError else Ok (seed_bitgen seed).

(** [k] successive variates [loc + scale * z]. *)
Fixpoint draw (k : nat) (loc scale : Q) (g : bitgen) : ndarray * bitgen :=
  match k with
  | O => ([], g)
  | S k' =>
      let (z, g1) := next_standard_normal g in
      let (zs, g2) := draw k' loc scale g1 in
      (loc + scale * z :: zs, g2)
  end.

(** A computation that uses the generator and may raise. *)
Definition M (A : Type) : Type := bitgen -> result (A * bitgen).

Definition ret {A} (a : A) : M A := fun g => Ok (a, g).

Definition bind {A B} (m : M A) (k : A -> M B) : M B :=
  fun g => match m g with
           | Ok (a, g') => k a g'
           | Raise e => Raise e
           end.

Definition lift {A} (r : result A) : M A :=
  fun g => match r with Ok a => Ok (a, g) | Raise e => Raise e end.

(** [rng.normal(loc, scale, size)]: a float size is a [TypeError], a
    negative size a [ValueError]. *)
Definition normal (loc scale : Q) (size : py_number) : M ndarray :=
  fun g => match size with
           | PyFloat _ => Raise TypeError
           | PyInt n => if (n <? 0)%Z then Raise ValueError
                        else Ok (draw (Z.to_nat n) loc scale g)
           end.

Notation "x <- m ;; k" := (bind m (fun x => k))
  (at level 100, m at next level, right associativity).
Notation "c |+| a" := (scalar_add c a) (at level 50, left associativity).
Notation "c |*| a" := (scalar_mul c a) (at level 40, left associativity).

(** The body of [generate_synthetic_customer_data] after the generator has
    been created. *)
Definition generate_body (n_customers : py_number) : M DataFrame :=
  engagement_factor <- normal 0 1 n_customers ;;
  z <- normal 0 1.5 n_customers ;;
  s <- lift (array_add (4 |+| 2.0 |*| engagement_factor) z) ;;
  let visits_per_month := clip s (Some 0) None in
  z <- normal 0 2.0 n_customers ;;
  s <- lift (array_add (5 |+| 3.0 |*| engagement_factor) z) ;;
  let avg_session_duration_min := clip s (Some 1) None in
  z <- normal 0 1.0 n_customers ;;
  s <- lift (array_add (3 |+| 1.5 |*| engagement_factor) z) ;;
  let pages_per_session := clip s (Some 1) None in
  z <- normal 0 0.05 n_customers ;;
  s <- lift (array_add (0.15 |+| 0.1 |*| engagement_factor) z) ;;
  let email_open_rate := clip s (Some 0) (Some 1) in
  z <- normal 0 0.03 n_customers ;;
  s <- lift (array_add (0.03 |+| 0.07 |*| engagement_factor) z) ;;
  let email_click_through_rate := clip s (Some 0) (Some 1) in
  z <- normal 0 0.3 n_customers ;;
  s <- lift (array_add (0.5 |+| 0.6 |*| engagement_factor) z) ;;
  let purchase_frequency_per_month := clip s (Some 0) None in
  z <- normal 0 10 n_customers ;;
  s <- lift (array_add (40 |+| 8.0 |*| engagement_factor) z) ;;
  let avg_order_value := clip s (Some 5) None in
  s1 <- lift (array_add (200 |+| 80 |*| engagement_factor)
                        (10 |*| purchase_frequency_per_month)) ;;
  s2 <- lift (array_add s1 (0.5 |*| avg_order_value)) ;;
  z <- normal 0 50 n_customers ;;
  s <- lift (array_add s2 z) ;;
  let customer_lifetime_value := clip s (Some 0) None in
  z <- normal 0 10 n_customers ;;
  s <- lift (array_add (20 |+| 15 |*| engagement_factor) z) ;;
  let nps_score := clip s (Some (-100)) (Some 100) in
  lift (make_DataFrame
          [ ("Visits per Month"%string, visits_per_month);
            ("Avg Session Duration (min)"%string, avg_session_duration_min);
            ("Pages per Session"%string, pages_per_session);
            ("Email Open Rate"%string, email_open_rate);
            ("Email CTR"%string, email_click_through_rate);
            ("Purchase Frequency / Month"%string, purchase_frequency_per_month);
            ("Average Order Value ($)"%string, avg_order_value);
            ("Customer Lifetime Value ($)"%string, customer_lifetime_value);
            ("NPS Score"%string, nps_score) ]).

Definition generate_synthetic_customer_data
    (n_customers : py_number) (random_state : Z) : result DataFrame :=
  match default_rng random_state with
  | Raise e => Raise e
  | Ok rng =>
      match generate_body n_customers rng with
      | Ok (df, _) => Ok df
      | Raise e => Raise e
      end
  end.

End Generator.

Arguments default_rng {bitgen} seed_bitgen seed.
Arguments draw {bitgen} next_standard_normal k loc scale g.
Arguments ret {bitgen A} a g.
Arguments bind {bitgen A B} m k g.
Arguments lift {bitgen A} r g.
Arguments normal {bitgen} next_standard_normal loc scale size g.
Arguments generate_body {bitgen} next_standard_normal n_customers g.
Arguments generate_synthetic_customer_data {bitgen} seed_bitgen
  next_standard_normal n_customers random_state.

(** ** The stream of variates behind a generator state *)

Section Stream.

Context {bitgen : Type}.
Variable next_standard_normal : bitgen -> Q * bitgen.

(** The state after [k] variates have been consumed. *)
Fixpoint advance (k : nat) (g : bitgen) : bitgen :=
  match k with
  | O => g
  | S k' => advance k' (snd (next_standard_normal g))
  end.

(** The [k]-th standard normal variate produced from state [g]. *)
Definition variate (g : bitgen) (k : nat) : Q :=
  fst (next_standard_normal (advance k g)).

(** The latent engagement factor of customer [i]: the first call of
    [rng.normal], with [loc = 0] and [scale = 1]. *)
Definition latent (g : bitgen) (i : nat) : Q := 0 + 1 * variate g i.

(** The noise of customer [i] in the [k]-th later call of [rng.normal]
    (each call consumes [n] variates), with [loc = 0] and [scale = sigma]. *)
Definition noise (g : bitgen) (n k : nat) (sigma : Q) (i : nat) : Q :=
  0 + sigma * variate g (k * n + i).

(** [clip (base + weight * engagement_factor + noise)] for one customer. *)
Definition linear_field (base weight sigma : Q) (lo hi : option Q)
    (k : nat) (g : bitgen) (n i : nat) : Q :=
  clip1 lo hi (base + weight * latent g i + noise g n k sigma i).

Definition visits_at := linear_field 4 2.0 1.5 (Some 0) None 1.
Definition session_at := linear_field 5 3.0 2.0 (Some 1) None 2.
Definition pages_at := linear_field 3 1.5 1.0 (Some 1) None 3.
Definition open_rate_at := linear_field 0.15 0.1 0.05 (Some 0) (Some 1) 4.
Definition ctr_at := linear_field 0.03 0.07 0.03 (Some 0) (Some 1) 5.
Definition purchase_at := linear_field 0.5 0.6 0.3 (Some 0) None 6.
Definition order_value_at := linear_field 40 8.0 10 (Some 5) None 7.
Definition nps_at := linear_field 20 15 10 (Some (-100)) (Some 100) 9.

Definition clv_at (g : bitgen) (n i : nat) : Q :=
  clip1 (Some 0) None
    (200 + 80 * latent g i + 10 * purchase_at g n i
     + 0.5 * order_value_at g n i + noise g n 8 50 i).

(** [f 0, ..., f (n - 1)] as an array. *)
Definition tabulate (f : nat -> Q) (n : nat) : ndarray :=
  List.map f (seq 0 n).

(** The table of [n] customers read off the stream of state [g]. *)
Definition table_of_stream (g : bitgen) (n : nat) : DataFrame :=
  mkDataFrame n
    [ ("Visits per Month"%string, tabulate (visits_at g n) n);
      ("Avg Session Duration (min)"%string, tabulate (session_at g n) n);
      ("Pages per Session"%string, tabulate (pages_at g n) n);
      ("Email Open Rate"%string, tabulate (open_rate_at g n) n);
      ("Email CTR"%string, tabulate (ctr_at g n) n);
      ("Purchase Frequency / Month"%string, tabulate (purchase_at g n) n);
      ("Average Order Value ($)"%string, tabulate (order_value_at g n) n);
      ("Customer Lifetime Value ($)"%string, tabulate (clv_at g n) n);
      ("NPS Score"%string, tabulate (nps_at g n) n) ].

End Stream.

(** ** The computation cut into stages *)

Section Stages.

Context {bitgen : Type}.
Variable seed_bitgen : Z -> bitgen.
Variable next_standard_normal : bitgen -> Q * bitgen.

Notation "x <- m ;; k" := (bind m (fun x => k))
  (at level 100, m at next level, right associativity).
Notation "c |+| a" := (scalar_add c a) (at level 50, left associativity).
Notation "c |*| a" := (scalar_mul c a) (at level 40, left associativity).

(** One metric that depends on the latent factor and its own noise only. *)
Definition metric (base weight sigma : Q) (lo hi : option Q)
    (engagement_factor : ndarray) (n_customers : py_number) : M bitgen ndarray :=
  z <- normal next_standard_normal 0 sigma n_customers ;;
  s <- lift (array_add (base |+| weight |*| engagement_factor) z) ;;
  ret (clip s lo hi).

(** The latent factor and the seven metrics computed before the lifetime
    value. *)
Definition stage_metrics (n : py_number) : M bitgen (ndarray * list ndarray) :=
  e <- normal next_standard_normal 0 1 n ;;
  visits <- metric 4 2.0 1.5 (Some 0) None e n ;;
  session <- metric 5 3.0 2.0 (Some 1) None e n ;;
  pages <- metric 3 1.5 1.0 (Some 1) None e n ;;
  open_rate <- metric 0.15 0.1 0.05 (Some 0) (Some 1) e n ;;
  ctr <- metric 0.03 0.07 0.03 (Some 0) (Some 1) e n ;;
  purchase <- metric 0.5 0.6 0.3 (Some 0) None e n ;;
  order_value <- metric 40 8.0 10 (Some 5) None e n ;;
  ret (e, [visits; session; pages; open_rate; ctr; purchase; order_value]).

(** The lifetime value, from the latent factor, the clipped purchase
    frequency and order value, and a new noise draw. *)
Definition stage_clv (e purchase order_value : ndarray) (n : py_number)
    : M bitgen ndarray :=
  s1 <- lift (array_add (200 |+| 80 |*| e) (10 |*| purchase)) ;;
  s2 <- lift (array_add s1 (0.5 |*| order_value)) ;;
  z <- normal next_standard_normal 0 50 n ;;
  s <- lift (array_add s2 z) ;;
  ret (clip s (Some 0) None).

Definition stage_nps (e : ndarray) (n : py_number) : M bitgen ndarray :=
  metric 20 15 10 (Some (-100)) (Some 100) e n.

Definition frame_of (m : list ndarray) (clv nps : ndarray) : result DataFrame :=
  match m with
  | [visits; session; pages; open_rate; ctr; purchase; order_value] =>
      make_DataFrame
        [ ("Visits per Month"%string, visits);
          ("Avg Session Duration (min)"%string, session);
          ("Pages per Session"%string, pages);
          ("Email Open Rate"%string, open_rate);
          ("Email CTR"%string, ctr);
          ("Purchase Frequency / Month"%string, purchase);
          ("Average Order Value ($)"%string, order_value);
          ("Customer Lifetime Value ($)"%string, clv);
          ("NPS Score"%string, nps) ]
  | _ => Raise ValueError
  end.

Definition purchase_of (m : list ndarray) : ndarray := nth 5 m [].
Definition order_value_of (m : list ndarray) : ndarray := nth 6 m [].

(** The order of the source: metrics, lifetime value, then the NPS score. *)
Definition generate_staged (n : py_number) : M bitgen DataFrame :=
  em <- stage_metrics n ;;
  clv <- stage_clv (fst em) (purchase_of (snd em)) (order_value_of (snd em)) n ;;
  nps <- stage_nps (fst em) n ;;
  lift (frame_of (snd em) clv nps).

(** The order of the specification: every field that does not depend on
    the lifetime value first (the NPS score among them), the lifetime value
    last. *)
Definition generate_two_stage_body (n : py_number) : M bitgen DataFrame :=
  em <- stage_metrics n ;;
  nps <- stage_nps (fst em) n ;;
  clv <- stage_clv (fst em) (purchase_of (snd em)) (order_value_of (snd em)) n ;;
  lift (frame_of (snd em) clv nps).

Definition generate_two_stage (n : py_number) (random_state : Z)
    : result DataFrame :=
  match default_rng seed_bitgen random_state with
  | Raise e => Raise e
  | Ok rng =>
      match generate_two_stage_body n rng with
      | Ok (df, _) => Ok df
      | Raise e => Raise e
      end
  end.

End Stages.

(** ** A small concrete generator

    A linear congruential generator with outputs in [[-2, 2]], used to run
    the definitions on concrete inputs. *)

Module Lcg.

Definition state : Type := Z.

Definition seed (s : Z) : state := (s mod 2147483648)%Z.

Definition next (g : state) : Q * state :=
  let g' := ((1103515245 * g + 12345) mod 2147483648)%Z in
  (((g' mod 2001) - 1000)%Z # 500, g').

Definition generate : py_number -> Z -> result DataFrame :=
  generate_synthetic_customer_data seed next.

Definition generate_two_stage : py_number -> Z -> result DataFrame :=
  generate_two_stage seed next.

End Lcg.

(** ** Pearson correlation: [DataFrame.corr]

    The coefficient of two columns is the sum of the products of their
    deviations from the mean over the square root of the product of the sums
    of squared deviations; it is NaN ([None]) when that divisor is zero. *)

Definition Rsum (l : list R) : R := fold_right Rplus 0%R l.

Definition mean (l : list R) : R := (Rsum l / INR (length l))%R.

Definition deviations (l : list R) : list R :=
  List.map (fun x => (x - mean l)%R) l.

Definition dot (a b : list R) : R := Rsum (map2 Rmult a b).

(** The sum of squared deviations of a column: zero for a constant column. *)
Definition sum_sq_dev (x : list R) : R := dot (deviations x) (deviations x).

Definition pearson (x y : list R) : option R :=
  let d := sqrt (sum_sq_dev x * sum_sq_dev y) in
  if Req_EM_T d 0 then None
  else Some (dot (deviations x) (deviations y) / d)%R.

Definition matrix (A : Type) : Type := list (list A).

Definition real_columns (df : DataFrame) : list (list R) :=
  List.map (fun c => List.map Q2R (snd c)) (columns df).

Definition corr (df : DataFrame) : matrix (option R) :=
  List.map (fun x => List.map (fun y => pearson x y) (real_columns df))
           (real_columns df).

Definition entry {A} (m : matrix A) (i j : nat) : option A :=
  match nth_error m i with
  | Some row => nth_error row j
  | None => None
  end.

(** ** The mask: [np.triu(np.ones_like(corr, dtype=bool))] *)

Definition ones_like {A} (m : matrix A) : matrix bool :=
  List.map (List.map (fun _ => true)) m.

(** The entries below the main diagonal are set to [False]. *)
Definition triu (m : matrix bool) : matrix bool :=
  imap (fun i row => imap (fun j x => if (i <=? j)%nat then x else false) row) m.

(** ** The heat map: [sns.heatmap] *)

(** A drawn cell: its position, its value, and its annotation, the value
    under a Python format specification ([None] when not annotated). *)
Record Cell : Type := mkCell {
  cell_row : nat;
  cell_col : nat;
  cell_value : R;
  cell_annotation : option (string * R)
}.

Record Axes : Type := mkAxes {
  drawn : list Cell;
  color_range : Q * Q;
  cmap : string;
  cbar_shrink : Q;
  cbar_label : string;
  title : string;
  xtick_rotation : Z;
  ytick_rotation : Z
}.

Definition shape {A} (m : matrix A) : list nat := List.map (@length A) m.

(** A cell is shown when its mask entry is [False] and its value is not
    missing. *)
Definition shown_cell (mask : matrix bool) (annot : bool) (fmt : string)
    (i j : nat) (v : option R) : option Cell :=
  match v, entry mask i j with
  | Some r, Some false =>
      Some (mkCell i j r (if annot then Some (fmt, r) else None))
  | _, _ => None
  end.

Definition shown_cells (data : matrix (option R)) (mask : matrix bool)
    (annot : bool) (fmt : string) : list Cell :=
  concat (imap (fun i row =>
                  omap (fun c => c) (imap (shown_cell mask annot fmt i) row)) data).

(** The mask must have the shape of the data. *)
Definition heatmap (data : matrix (option R)) (mask : matrix bool)
    (annot : bool) (fmt : string) (cmap : string) (vmin vmax : Q)
    (cbar_shrink : Q) (cbar_label : string) : result Axes :=
  if bool_decide (shape mask = shape data)
  then Ok (mkAxes (shown_cells data mask annot fmt) (vmin, vmax) cmap
                  cbar_shrink cbar_label "" 0 0)
  else Raise ValueError.

Definition set_title (ax : Axes) (t : string) : Axes :=
  mkAxes (drawn ax) (color_range ax) (cmap ax) (cbar_shrink ax) (cbar_label ax)
         t (xtick_rotation ax) (ytick_rotation ax).

Definition set_tick_rotation (ax : Axes) (x y : Z) : Axes :=
  mkAxes (drawn ax) (color_range ax) (cmap ax) (cbar_shrink ax) (cbar_label ax)
         (title ax) x y.

(** ** The canvas and the file: [plt.subplots], [fig.savefig], [plt.close] *)

Inductive ImageFormat : Type := PNG | JPEG | PDF | SVG.

Inductive File : Type :=
| Image (fmt : ImageFormat) (width height : Z)
| Other (content : string).

(** The files, the paths that cannot be written, and the number of figures
    pyplot keeps open. *)
Record World : Type := mkWorld {
  files : gmap string File;
  unwritable : gset string;
  open_figures : nat
}.

(** A figure: its size in inches and its resolution in dots per inch. *)
Record Figure : Type := mkFigure {
  figsize : Z * Z;
  fig_dpi : Z
}.

Definition subplots (size : Z * Z) (dpi : Z) (w : World) : Figure * World :=
  (mkFigure size dpi, mkWorld (files w) (unwritable w) (S (open_figures w))).

Definition close (fig : Figure) (w : World) : World :=
  mkWorld (files w) (unwritable w) (Nat.pred (open_figures w)).

(** The part of a file name after its last dot. *)
Fixpoint extension_from (s : string) (acc : option string) : option string :=
  match s with
  | EmptyString => acc
  | String c s' =>
      if Ascii.eqb c (Ascii.ascii_of_nat 46) then extension_from s' (Some EmptyString)
      else extension_from s'
             (option_map (fun e => String.append e (String c EmptyString)) acc)
  end.

Definition format_of_name (fname : string) : option ImageFormat :=
  match extension_from fname None with
  | Some "png"%string => Some PNG
  | Some "jpg"%string | Some "jpeg"%string => Some JPEG
  | Some "pdf"%string => Some PDF
  | Some "svg"%string => Some SVG
  | _ => None
  end.

(** [fig.savefig(fname, dpi=dpi)] without [bbox_inches]: the whole canvas is
    written, [figsize * dpi] pixels each way, in the format of the file
    name's extension; an existing file is replaced. *)
Definition savefig (fig : Figure) (fname : string) (dpi : Z) (w : World)
    : result World :=
  match format_of_name fname with
  | None => Raise ValueError
  | Some fmt =>
      if bool_decide (fname ∈ unwritable w) then Raise OSError
      else Ok (mkWorld
                 (<[fname := Image fmt (fst (figsize fig) * dpi)
                                       (snd (figsize fig) * dpi)]> (files w))
                 (unwritable w) (open_figures w))
  end.

(** ** [main] *)

(** The heat map [main] draws for a table: the correlation matrix, the mask,
    the annotated heat map, the title and the tick labels.  The seaborn
    style and context calls only affect fonts and are left out. *)
Definition heatmap_of (df : DataFrame) : result Axes :=
  let corr := corr df in
  let mask := triu (ones_like corr) in
  match heatmap corr mask true ".2f" "YlGnBu" (-1) 1 0.8 "Pearson Correlation" with
  | Raise e => Raise e
  | Ok ax =>
      let ax := set_title ax "Customer Engagement Metric Correlation Matrix" in
      Ok (set_tick_rotation ax 45 0)
  end.

(** Everything [main] does with the table: the canvas is created before
    the heat map is drawn, and closed after the file has been written. *)
Definition render (df : DataFrame) (w : World) : result World :=
  let (fig, w1) := subplots (8, 8)%Z 64%Z w in
  match heatmap_of df with
  | Raise e => Raise e
  | Ok ax =>
      match savefig fig "chart.png" (fig_dpi fig) w1 with
      | Raise e => Raise e
      | Ok w2 => Ok (close fig w2)
      end
  end.

Definition main {bitgen : Type} (seed_bitgen : Z -> bitgen)
    (next_standard_normal : bitgen -> Q * bitgen) (w : World) : result World :=
  match generate_synthetic_customer_data seed_bitgen next_standard_normal
          (PyInt 1000) 42 with
  | Raise e => Raise e
  | Ok df => render df w
  end.

(** ** Column labels and documented bounds *)

Definition column_labels : list string :=
  [ "Visits per Month"; "Avg Session Duration (min)"; "Pages per Session";
    "Email Open Rate"; "Email CTR"; "Purchase Frequency / Month";
    "Average Order Value ($)"; "Customer Lifetime Value ($)";
    "NPS Score" ]%string.

(** The closed interval each column is documented to lie in; an absent
    bound is infinite. *)
Definition clamp_interval (label : string) : option Q * option Q :=
  if String.eqb label "Visits per Month" then (Some 0, None)
  else if String.eqb label "Avg Session Duration (min)" then (Some 1, None)
  else if String.eqb label "Pages per Session" then (Some 1, None)
  else if String.eqb label "Email Open Rate" then (Some 0, Some 1)
  else if String.eqb label "Email CTR" then (Some 0, Some 1)
  else if String.eqb label "Purchase Frequency / Month" then (Some 0, None)
  else if String.eqb label "Average Order Value ($)" then (Some 5, None)
  else if String.eqb label "Customer Lifetime Value ($)" then (Some 0, None)
  else if String.eqb label "NPS Score" then (Some (-100), Some 100)
  else (None, None).

Definition within (iv : option Q * option Q) (v : Q) : Prop :=
  match fst iv with Some lo => lo <= v | None => True end /\
  match snd iv with Some hi => v <= hi | None => True end.

Definition column_within (c : string * ndarray) : Prop :=
  Forall (within (clamp_interval (fst c))) (snd c).


(** ** Concrete inputs *)

(** A table of nine columns and three rows, none of them constant. *)
Definition sample_columns : list (string * ndarray) :=
  [ ("Visits per Month"%string, [0; 1; 2]);
    ("Avg Session Duration (min)"%string, [1; 0; 2]);
    ("Pages per Session"%string, [2; 1; 0]);
    ("Email Open Rate"%string, [0; 0; 1]);
    ("Email CTR"%string, [0; 1; 0]);
    ("Purchase Frequency / Month"%string, [1; 0; 0]);
    ("Average Order Value ($)"%string, [5; 6; 8]);
    ("Customer Lifetime Value ($)"%string, [3; 1; 2]);
    ("NPS Score"%string, [-1; 0; 1]) ].

Definition sample_frame : DataFrame := mkDataFrame 3 sample_columns.

(** A world in which [chart.png] already exists, as a text file. *)
Definition sample_world : World :=
  mkWorld (<["chart.png"%string := Other "old"]> ∅) ∅ 0.

(** ** Values before clamping *)

Section Unclamped.

Context {bitgen : Type}.
Variable next_standard_normal : bitgen -> Q * bitgen.

(** The argument of [np.clip] for the column [label] and customer [i] of a
    table of [n] customers: the linear formula of the source with that
    customer's latent factor and noise.  The lifetime value reads the
    clamped purchase frequency and order value. *)
Definition unclamped (label : string) (g : bitgen) (n i : nat) : Q :=
  let e := latent next_standard_normal g i in
  let z := fun block sigma => noise next_standard_normal g n block sigma i in
  if String.eqb label "Visits per Month" then 4 + 2.0 * e + z 1%nat 1.5
  else if String.eqb label "Avg Session Duration (min)"
  then 5 + 3.0 * e + z 2%nat 2.0
  else if String.eqb label "Pages per Session" then 3 + 1.5 * e + z 3%nat 1.0
  else if String.eqb label "Email Open Rate" then 0.15 + 0.1 * e + z 4%nat 0.05
  else if String.eqb label "Email CTR" then 0.03 + 0.07 * e + z 5%nat 0.03
  else if String.eqb label "Purchase Frequency / Month"
  then 0.5 + 0.6 * e + z 6%nat 0.3
  else if String.eqb label "Average Order Value ($)" then 40 + 8.0 * e + z 7%nat 10
  else if String.eqb label "Customer Lifetime Value ($)"
  then 200 + 80 * e + 10 * purchase_at next_standard_normal g n i
       + 0.5 * order_value_at next_standard_normal g n i + z 8%nat 50
  else if String.eqb label "NPS Score" then 20 + 15 * e + z 9%nat 10
  else 0.

End Unclamped.

(** ** The state left behind by an exception *)

(** What [main] does with the table, keeping the world it leaves when a
    call raises: the exception propagates from where it is raised, there is
    no [try] around [fig.savefig], so [plt.close] runs only after a
    successful write. *)
Definition render_run (df : DataFrame) (w : World) : World * option exn :=
  let (fig, w1) := subplots (8, 8)%Z 64%Z w in
  match heatmap_of df with
  | Raise e => (w1, Some e)
  | Ok ax =>
      match savefig fig "chart.png" (fig_dpi fig) w1 with
      | Raise e => (w1, Some e)
      | Ok w2 => (close fig w2, None)
      end
  end.

(** A world in which [chart.png] cannot be written. *)
Definition locked_world : World :=
  mkWorld (<["chart.png"%string := Other "old"]> ∅) {["chart.png"%string]} 0.

(** * Properties *)

(** ** Arrays and clipping *)

Lemma length_tabulate (f : nat -> Q) (n : nat) : length (tabulate f n) = n.
Proof. unfold tabulate. now rewrite length_map, length_seq. Qed.

Lemma map2_map_seq {A B C} (f : A -> B -> C) (a : nat -> A) (b : nat -> B)
    (s n : nat) :
  map2 f (List.map a (seq s n)) (List.map b (seq s n))
  = List.map (fun i => f (a i) (b i)) (seq s n).
Proof.
  revert s. induction n as [|n IH]; intros s; simpl; [reflexivity|].
  now rewrite IH.
Qed.

Lemma array_add_tabulate (a b : nat -> Q) (n : nat) :
  array_add (tabulate a n) (tabulate b n)
  = Ok (tabulate (fun i => a i + b i) n).
Proof.
  unfold array_add. rewrite !length_tabulate, Nat.eqb_refl.
  unfold tabulate. now rewrite map2_map_seq.
Qed.

Lemma scalar_add_tabulate (c : Q) (a : nat -> Q) (n : nat) :
  scalar_add c (tabulate a n) = tabulate (fun i => c + a i) n.
Proof. unfold scalar_add, tabulate. now rewrite List.map_map. Qed.

Lemma scalar_mul_tabulate (c : Q) (a : nat -> Q) (n : nat) :
  scalar_mul c (tabulate a n) = tabulate (fun i => c * a i) n.
Proof. unfold scalar_mul, tabulate. now rewrite List.map_map. Qed.

Lemma clip_tabulate (a : nat -> Q) (lo hi : option Q) (n : nat) :
  clip (tabulate a n) lo hi = tabulate (fun i => clip1 lo hi (a i)) n.
Proof. unfold clip, tabulate. now rewrite List.map_map. Qed.

Lemma tabulate_ext (f h : nat -> Q) (n : nat) :
  (forall i, (i < n)%nat -> f i = h i) -> tabulate f n = tabulate h n.
Proof.
  intros E. unfold tabulate. apply List.map_ext_in.
  intros i Hi. apply E. apply in_seq in Hi. lia.
Qed.

Lemma nth_error_tabulate (f : nat -> Q) (n i : nat) :
  (i < n)%nat -> nth_error (tabulate f n) i = Some (f i).
Proof.
  intros Hi. unfold tabulate.
  rewrite nth_error_map, nth_error_seq.
  destruct (Nat.ltb_spec i n); [reflexivity | lia].
Qed.

Lemma clip1_lower (lo x : Q) : lo <= clip1 (Some lo) None x.
Proof. unfold clip1. apply Q.le_max_r. Qed.

Lemma clip1_between (lo hi x : Q) :
  lo <= hi -> lo <= clip1 (Some lo) (Some hi) x <= hi.
Proof.
  intros H. unfold clip1. split.
  - apply Q.min_glb; [apply Q.le_max_r | exact H].
  - apply Q.le_min_r.
Qed.

(** ** The generator *)

Section GeneratorFacts.

Context {bitgen : Type}.
Variable seed_bitgen : Z -> bitgen.
Variable next_standard_normal : bitgen -> Q * bitgen.

Lemma advance_add (a b : nat) (g : bitgen) :
  advance next_standard_normal b (advance next_standard_normal a g)
  = advance next_standard_normal (a + b) g.
Proof.
  revert g. induction a as [|a IH]; intros g; simpl; [reflexivity|].
  apply IH.
Qed.

Lemma variate_advance (a i : nat) (g : bitgen) :
  variate next_standard_normal (advance next_standard_normal a g) i
  = variate next_standard_normal g (a + i).
Proof. unfold variate. now rewrite advance_add. Qed.

(** [draw] reads the next [k] variates of the stream, in order. *)
Lemma draw_stream (k : nat) (loc scale : Q) (g : bitgen) :
  draw next_standard_normal k loc scale g
  = (tabulate (fun i => loc + scale * variate next_standard_normal g i) k,
     advance next_standard_normal k g).
Proof.
  revert g. induction k as [|k IH]; intros g; [reflexivity|].
  simpl draw. destruct (next_standard_normal g) as [z g1] eqn:E.
  rewrite IH. unfold tabulate. simpl. f_equal.
  - f_equal.
    + unfold variate. simpl. now rewrite E.
    + rewrite <- seq_shift, List.map_map. apply List.map_ext.
      intros i. unfold variate. simpl. now rewrite E.
  - now rewrite E.
Qed.

Lemma normal_stream (n : Z) (loc scale : Q) (g : bitgen) :
  (0 <= n)%Z ->
  normal next_standard_normal loc scale (PyInt n) g
  = Ok (tabulate (fun i => loc + scale * variate next_standard_normal g i)
                 (Z.to_nat n),
        advance next_standard_normal (Z.to_nat n) g).
Proof.
  intros Hn. unfold normal.
  destruct (Z.ltb_spec n 0); [lia|]. now rewrite draw_stream.
Qed.

(** One metric, read off the stream. *)
Lemma metric_stream (base weight sigma : Q) (lo hi : option Q)
    (e : nat -> Q) (n : Z) (g : bitgen) :
  (0 <= n)%Z ->
  metric next_standard_normal base weight sigma lo hi
    (tabulate e (Z.to_nat n)) (PyInt n) g
  = Ok (tabulate (fun i => clip1 lo hi
                   (base + weight * e i
                    + (0 + sigma * variate next_standard_normal g i)))
                 (Z.to_nat n),
        advance next_standard_normal (Z.to_nat n) g).
Proof.
  intros Hn. unfold metric, bind.
  rewrite normal_stream by exact Hn.
  rewrite scalar_mul_tabulate, scalar_add_tabulate, array_add_tabulate.
  unfold lift, ret. now rewrite clip_tabulate.
Qed.

Ltac stream_index :=
  apply tabulate_ext; intros;
  unfold visits_at, session_at, pages_at, open_rate_at, ctr_at, purchase_at,
    order_value_at, nps_at, clv_at, linear_field, noise, latent;
  rewrite ?advance_add, ?variate_advance;
  repeat (f_equal; try lia).

Lemma stage_metrics_stream (n : Z) (g : bitgen) :
  (0 <= n)%Z ->
  let k := Z.to_nat n in
  let nx := next_standard_normal in
  stage_metrics nx (PyInt n) g
  = Ok ((tabulate (latent nx g) k,
         [ tabulate (visits_at nx g k) k; tabulate (session_at nx g k) k;
           tabulate (pages_at nx g k) k; tabulate (open_rate_at nx g k) k;
           tabulate (ctr_at nx g k) k; tabulate (purchase_at nx g k) k;
           tabulate (order_value_at nx g k) k ]),
        advance nx (8 * k) g).
Proof.
  intros Hn k nx. unfold stage_metrics, bind.
  rewrite normal_stream by exact Hn.
  rewrite !metric_stream by exact Hn.
  unfold ret. fold k. fold nx. rewrite !advance_add.
  f_equal. f_equal; [f_equal|f_equal; lia].
  repeat (apply (f_equal2 cons); [stream_index|]). reflexivity.
Qed.

Lemma stage_clv_stream (n : Z) (g : bitgen) :
  (0 <= n)%Z ->
  let k := Z.to_nat n in
  let nx := next_standard_normal in
  stage_clv nx (tabulate (latent nx g) k) (tabulate (purchase_at nx g k) k)
    (tabulate (order_value_at nx g k) k) (PyInt n) (advance nx (8 * k) g)
  = Ok (tabulate (clv_at nx g k) k, advance nx (9 * k) g).
Proof.
  intros Hn k nx. unfold stage_clv, bind.
  rewrite !scalar_mul_tabulate, scalar_add_tabulate, array_add_tabulate.
  unfold lift at 1. rewrite array_add_tabulate. unfold lift at 1.
  rewrite normal_stream by exact Hn.
  rewrite array_add_tabulate. unfold lift, ret. rewrite clip_tabulate.
  fold k. fold nx. rewrite advance_add.
  f_equal. f_equal; [stream_index | f_equal; lia].
Qed.

Lemma stage_nps_stream (n : Z) (g : bitgen) :
  (0 <= n)%Z ->
  let k := Z.to_nat n in
  let nx := next_standard_normal in
  stage_nps nx (tabulate (latent nx g) k) (PyInt n) (advance nx (9 * k) g)
  = Ok (tabulate (nps_at nx g k) k, advance nx (10 * k) g).
Proof.
  intros Hn k nx. subst k nx. unfold stage_nps.
  rewrite metric_stream by exact Hn.
  rewrite advance_add.
  f_equal. f_equal; [stream_index | f_equal; lia].
Qed.

(** The body of the source and its cut into three stages are the same
    computation. *)
Lemma generate_body_staged (n : py_number) (g : bitgen) :
  generate_body next_standard_normal n g
  = generate_staged next_standard_normal n g.
Proof.
  unfold generate_body, generate_staged, stage_metrics, stage_clv, stage_nps,
    metric, purchase_of, order_value_of, frame_of, bind, ret, lift.
  repeat (cbn [fst snd nth];
          match goal with
          | |- context [match normal ?nx ?l ?s ?k ?st with _ => _ end] =>
              destruct (normal nx l s k st) as [[? ?]|?]; [|reflexivity]
          | |- context [match array_add ?a ?b with _ => _ end] =>
              destruct (array_add a b); [|reflexivity]
          end).
  reflexivity.
Qed.

(** On valid arguments the body returns the table read off the stream and
    leaves the generator ten arrays further. *)
Lemma generate_body_stream (n : Z) (g : bitgen) :
  (0 <= n)%Z ->
  generate_body next_standard_normal (PyInt n) g
  = Ok (table_of_stream next_standard_normal g (Z.to_nat n),
        advance next_standard_normal (10 * Z.to_nat n) g).
Proof.
  intros Hn. rewrite generate_body_staged. unfold generate_staged, bind.
  rewrite stage_metrics_stream by exact Hn. cbn [fst snd].
  unfold purchase_of, order_value_of. cbn [nth].
  rewrite stage_clv_stream by exact Hn.
  rewrite stage_nps_stream by exact Hn.
  unfold lift, frame_of, make_DataFrame. cbn [forallb snd].
  rewrite !length_tabulate, Nat.eqb_refl. reflexivity.
Qed.

Lemma generate_stream (n seed : Z) :
  (0 <= n)%Z -> (0 <= seed)%Z ->
  generate_synthetic_customer_data seed_bitgen next_standard_normal
    (PyInt n) seed
  = Ok (table_of_stream next_standard_normal (seed_bitgen seed) (Z.to_nat n)).
Proof.
  intros Hn Hs. unfold generate_synthetic_customer_data, default_rng.
  destruct (Z.ltb_spec seed 0); [lia|].
  now rewrite generate_body_stream.
Qed.

Lemma generate_negative_seed (n : py_number) (seed : Z) :
  (seed < 0)%Z ->
  generate_synthetic_customer_data seed_bitgen next_standard_normal n seed
  = Raise ValueError.
Proof.
  intros Hs. unfold generate_synthetic_customer_data, default_rng.
  destruct (Z.ltb_spec seed 0); [reflexivity | lia].
Qed.

Lemma generate_negative_size (n seed : Z) :
  (n < 0)%Z ->
  generate_synthetic_customer_data seed_bitgen next_standard_normal
    (PyInt n) seed
  = Raise ValueError.
Proof.
  intros Hn. unfold generate_synthetic_customer_data, default_rng.
  destruct (seed <? 0)%Z; [reflexivity|].
  unfold generate_body, bind, normal.
  destruct (Z.ltb_spec n 0); [reflexivity | lia].
Qed.


End GeneratorFacts.

Section GeneratorClaims.

Context {bitgen : Type}.
Variable seed_bitgen : Z -> bitgen.
Variable next_standard_normal : bitgen -> Q * bitgen.

Lemma generate_ok_inv (n seed : Z) (df : DataFrame) :
  generate_synthetic_customer_data seed_bitgen next_standard_normal (PyInt n) seed
  = Ok df ->
  (0 <= n)%Z /\ (0 <= seed)%Z /\
  df = table_of_stream next_standard_normal (seed_bitgen seed) (Z.to_nat n).
Proof.
  intros H.
  destruct (Z.ltb_spec seed 0) as [Hs|Hs].
  { rewrite generate_negative_seed in H by exact Hs. discriminate. }
  destruct (Z.ltb_spec n 0) as [Hn|Hn].
  { rewrite generate_negative_size in H by exact Hn. discriminate. }
  rewrite generate_stream in H by assumption.
  injection H as <-. auto.
Qed.


Lemma Forall_tabulate (P : Q -> Prop) (f : nat -> Q) (n : nat) :
  (forall i, P (f i)) -> Forall P (tabulate f n).
Proof.
  intros H. unfold tabulate. generalize 0%nat.
  induction n as [|n IH]; intros s; simpl; constructor; auto.
Qed.

Lemma table_of_stream_within (g : bitgen) (k : nat) :
  Forall column_within (columns (table_of_stream next_standard_normal g k)).
Proof.
  unfold table_of_stream, column_within. cbn [columns].
  repeat (apply List.Forall_cons; [cbn [fst snd]; apply Forall_tabulate; intros i|]);
    [..|apply List.Forall_nil];
    unfold within, clamp_interval; cbn [String.eqb Ascii.eqb Bool.eqb fst snd];
    unfold visits_at, session_at, pages_at, open_rate_at, ctr_at, purchase_at,
      order_value_at, nps_at, clv_at, linear_field;
    first [ split; [apply clip1_lower | exact I]
          | apply clip1_between; discriminate ].
Qed.

(** C2. For a customer count of at least one and any seed, every value of
    every column of a table the generator returns lies in the closed interval
    documented for that column; and for a non-negative seed the generator
    does return a table. *)
Theorem generate_within_bounds (n seed : Z) :
  (1 <= n)%Z ->
  ((0 <= seed)%Z ->
   exists df, generate_synthetic_customer_data seed_bitgen next_standard_normal
                (PyInt n) seed = Ok df)
  /\ forall df, generate_synthetic_customer_data seed_bitgen next_standard_normal
                  (PyInt n) seed = Ok df ->
       Forall column_within (columns df).
Proof.
  intros Hn. split.
  - intros Hs. rewrite generate_stream by lia. eauto.
  - intros df H. apply generate_ok_inv in H as (_ & _ & ->).
    apply table_of_stream_within.
Qed.

(** C3. For a customer count [n] of at least one and any seed, a table the
    generator returns has exactly [n] rows and exactly the nine named
    columns, each holding [n] values, so that every cell is present; and for
    a non-negative seed the generator does return a table. *)
Theorem generate_shape (n seed : Z) :
  (1 <= n)%Z ->
  ((0 <= seed)%Z ->
   exists df, generate_synthetic_customer_data seed_bitgen next_standard_normal
                (PyInt n) seed = Ok df)
  /\ forall df, generate_synthetic_customer_data seed_bitgen next_standard_normal
                  (PyInt n) seed = Ok df ->
       nrows df = Z.to_nat n
       /\ column_names df = column_labels
       /\ length (columns df) = 9%nat
       /\ Forall (fun c => length (snd c) = Z.to_nat n) (columns df)
       /\ forall label i, In label column_labels -> (i < Z.to_nat n)%nat ->
            exists v, cell df label i = Some v.
Proof.
  intros Hn. split.
  - intros Hs. rewrite generate_stream by lia. eauto.
  - intros df H. apply generate_ok_inv in H as (_ & _ & ->).
    split; [reflexivity|]. split; [reflexivity|]. split; [reflexivity|]. split.
    + unfold table_of_stream. cbn [columns].
      repeat (apply List.Forall_cons; [cbn [snd]; apply length_tabulate|]).
      apply List.Forall_nil.
    + intros label i Hl Hi. unfold cell, table_of_stream. cbn [columns].
      cbn [In column_labels] in Hl.
      repeat (destruct Hl as [<-|Hl];
              [cbn [assoc String.eqb Ascii.eqb Bool.eqb];
               rewrite nth_error_tabulate by exact Hi; eauto|]).
      destruct Hl.
Qed.

(** C4. In a table the generator returns, the lifetime value of every
    customer is the clamp to [0, oo) of
    [200 + 80 * engagement_factor + 10 * purchase_frequency
     + 0.5 * avg_order_value + noise], where the purchase frequency and the
    order value are that customer's values in the table (already clamped, so
    at least 0 and at least 5), and the noise is [0 + 50 * z] for a variate
    [z] at a stream position no other value reads.  Each of the other eight
    columns is the clamp of [base + weight * engagement_factor + noise] with
    a noise draw of its own. *)
Theorem lifetime_value_formula (n seed : Z) (df : DataFrame) :
  generate_synthetic_customer_data seed_bitgen next_standard_normal (PyInt n) seed
  = Ok df ->
  forall i, (i < Z.to_nat n)%nat ->
  let k := Z.to_nat n in
  let e := latent next_standard_normal (seed_bitgen seed) i in
  let z := fun block sigma =>
             noise next_standard_normal (seed_bitgen seed) k block sigma i in
  exists pf aov,
    cell df "Purchase Frequency / Month" i = Some pf
    /\ cell df "Average Order Value ($)" i = Some aov
    /\ 0 <= pf /\ 5 <= aov
    /\ cell df "Customer Lifetime Value ($)" i
       = Some (clip1 (Some 0) None (200 + 80 * e + 10 * pf + 0.5 * aov + z 8%nat 50))
    /\ (forall block j, (j < k)%nat ->
          (block * k + j = 8 * k + i)%nat -> block = 8%nat /\ j = i)
    /\ pf = clip1 (Some 0) None (0.5 + 0.6 * e + z 6%nat 0.3)
    /\ aov = clip1 (Some 5) None (40 + 8.0 * e + z 7%nat 10)
    /\ cell df "Visits per Month" i
       = Some (clip1 (Some 0) None (4 + 2.0 * e + z 1%nat 1.5))
    /\ cell df "Avg Session Duration (min)" i
       = Some (clip1 (Some 1) None (5 + 3.0 * e + z 2%nat 2.0))
    /\ cell df "Pages per Session" i
       = Some (clip1 (Some 1) None (3 + 1.5 * e + z 3%nat 1.0))
    /\ cell df "Email Open Rate" i
       = Some (clip1 (Some 0) (Some 1) (0.15 + 0.1 * e + z 4%nat 0.05))
    /\ cell df "Email CTR" i
       = Some (clip1 (Some 0) (Some 1) (0.03 + 0.07 * e + z 5%nat 0.03))
    /\ cell df "NPS Score" i
       = Some (clip1 (Some (-100)) (Some 100) (20 + 15 * e + z 9%nat 10)).
Proof.
  intros H i Hi k e z. apply generate_ok_inv in H as (_ & _ & ->).
  exists (purchase_at next_standard_normal (seed_bitgen seed) k i),
         (order_value_at next_standard_normal (seed_bitgen seed) k i).
  unfold cell, table_of_stream. cbn [columns assoc String.eqb Ascii.eqb Bool.eqb].
  fold k. rewrite !nth_error_tabulate by exact Hi.
  repeat split; try reflexivity.
  - apply clip1_lower.
  - apply clip1_lower.
  - assert (block = 8%nat) by nia. lia.
  - assert (block = 8%nat) by nia. subst block. lia.
Qed.

(** C6, as the code has it.  The generator works in three stages, in this
    order: the latent factor and the seven metrics from the visits to the
    average order value, which consume the first eight arrays of variates;
    then the lifetime value, from the latent factor, the clamped purchase
    frequency and order value and the ninth array; and last the NPS score,
    from the latent factor and the tenth array. *)
Theorem generate_stage_order (n : Z) (g : bitgen) :
  (0 <= n)%Z ->
  let k := Z.to_nat n in
  let nx := next_standard_normal in
  generate_body nx (PyInt n) g = generate_staged nx (PyInt n) g
  /\ exists e m clv nps df,
       stage_metrics nx (PyInt n) g = Ok ((e, m), advance nx (8 * k) g)
       /\ stage_clv nx e (purchase_of m) (order_value_of m) (PyInt n)
            (advance nx (8 * k) g)
          = Ok (clv, advance nx (9 * k) g)
       /\ stage_nps nx e (PyInt n) (advance nx (9 * k) g)
          = Ok (nps, advance nx (10 * k) g)
       /\ frame_of m clv nps = Ok df
       /\ generate_body nx (PyInt n) g = Ok (df, advance nx (10 * k) g).
Proof.
  intros Hn k nx. split; [apply generate_body_staged|].
  eexists _, _, _, _, _. subst k nx.
  split; [apply stage_metrics_stream; exact Hn|].
  unfold purchase_of, order_value_of. cbn [nth].
  split; [apply stage_clv_stream; exact Hn|].
  split; [apply stage_nps_stream; exact Hn|].
  rewrite generate_body_stream by exact Hn.
  unfold frame_of, make_DataFrame. cbn [forallb snd].
  rewrite !length_tabulate, Nat.eqb_refl. split; reflexivity.
Qed.


(** C10. With a customer count of zero (and a seed the generator accepts,
    such as the default 42) the generator does not fail: it returns the
    table with no rows and the nine named columns, each empty. *)
Theorem generate_zero_customers (seed : Z) :
  (0 <= seed)%Z ->
  generate_synthetic_customer_data seed_bitgen next_standard_normal (PyInt 0) seed
  = Ok (mkDataFrame 0 (List.map (fun label => (label, [])) column_labels)).
Proof.
  intros Hs. now rewrite generate_stream by lia.
Qed.

End GeneratorClaims.

(** ** The correlation matrix *)

Section Pearson.

Local Open Scope R_scope.

Lemma dot_cons (x y : R) (a b : list R) :
  dot (x :: a) (y :: b) = x * y + dot a b.
Proof. reflexivity. Qed.

Lemma dot_comm (a b : list R) : dot a b = dot b a.
Proof.
  revert b. induction a as [|x a IH]; intros [|y b]; try reflexivity.
  rewrite !dot_cons, IH. ring.
Qed.

Lemma dot_self_nonneg (a : list R) : 0 <= dot a a.
Proof.
  induction a as [|x a IH]; [unfold dot; simpl; lra|].
  rewrite dot_cons. nra.
Qed.

(** The squared length of [c * b - d * a], expanded. *)
Lemma dot_combination (c d : R) (a b : list R) :
  length a = length b ->
  let v := map2 (fun x y => c * y - d * x) a b in
  dot v v = c * c * dot b b - 2 * c * d * dot a b + d * d * dot a a.
Proof.
  revert b. induction a as [|x a IH]; intros [|y b] L; try discriminate L.
  - unfold dot. simpl. ring.
  - simpl in L. injection L as L. specialize (IH b L). simpl in IH |- *.
    rewrite !dot_cons, IH. ring.
Qed.

Lemma cauchy_schwarz (a b : list R) :
  length a = length b -> 0 < dot a a ->
  dot a b * dot a b <= dot a a * dot b b.
Proof.
  intros L Ha.
  pose proof (dot_combination (dot a a) (dot a b) a b L) as E. simpl in E.
  pose proof (dot_self_nonneg
                (map2 (fun x y => dot a a * y - dot a b * x) a b)) as P.
  rewrite E in P. clear E.
  assert (0 <= dot a a * (dot a a * dot b b - dot a b * dot a b)) as Q by lra.
  nra.
Qed.

Lemma length_deviations (x : list R) : length (deviations x) = length x.
Proof. unfold deviations. apply length_map. Qed.

Lemma sum_sq_dev_pos (x : list R) : sum_sq_dev x <> 0 -> 0 < sum_sq_dev x.
Proof.
  intros H. pose proof (dot_self_nonneg (deviations x)).
  unfold sum_sq_dev in *. lra.
Qed.

Lemma pearson_defined (x y : list R) :
  length x = length y -> sum_sq_dev x <> 0 -> sum_sq_dev y <> 0 ->
  exists r, pearson x y = Some r /\ pearson y x = Some r /\ -1 <= r <= 1.
Proof.
  intros L Hx Hy.
  apply sum_sq_dev_pos in Hx. apply sum_sq_dev_pos in Hy.
  set (d := sqrt (sum_sq_dev x * sum_sq_dev y)).
  assert (0 < d) as Hd by (apply sqrt_lt_R0; nra).
  assert (d * d = sum_sq_dev x * sum_sq_dev y) as Hdd
      by (apply sqrt_sqrt; nra).
  pose proof (cauchy_schwarz (deviations x) (deviations y)) as CS.
  rewrite !length_deviations in CS. specialize (CS L Hx).
  fold (sum_sq_dev x) (sum_sq_dev y) in CS.
  exists (dot (deviations x) (deviations y) / d). repeat split.
  - unfold pearson. fold d. destruct (Req_EM_T d 0); [lra | reflexivity].
  - unfold pearson. rewrite (Rmult_comm (sum_sq_dev y)). fold d.
    destruct (Req_EM_T d 0); [lra|]. now rewrite dot_comm.
  - apply Rmult_le_reg_r with d; [exact Hd|].
    unfold Rdiv. rewrite Rmult_assoc, Rinv_l by lra. nra.
  - apply Rmult_le_reg_r with d; [exact Hd|].
    unfold Rdiv. rewrite Rmult_assoc, Rinv_l by lra. nra.
Qed.

Lemma pearson_diagonal (x : list R) :
  sum_sq_dev x <> 0 -> pearson x x = Some 1.
Proof.
  intros Hx. pose proof (sum_sq_dev_pos x Hx) as Hp.
  unfold pearson. rewrite sqrt_square by lra.
  destruct (Req_EM_T (sum_sq_dev x) 0); [contradiction|].
  f_equal. unfold sum_sq_dev in *. now field.
Qed.

End Pearson.

Lemma make_DataFrame_inv (d : list (string * ndarray)) (df : DataFrame) :
  make_DataFrame d = Ok df ->
  columns df = d /\ Forall (fun c => length (snd c) = nrows df) d.
Proof.
  unfold make_DataFrame. destruct d as [|[l a] d'].
  - intros [= <-]. split; [reflexivity | constructor].
  - destruct (forallb _ _) eqn:E; [|discriminate].
    intros [= <-]. split; [reflexivity|]. cbn [nrows].
    apply List.Forall_forall. intros c Hc.
    rewrite forallb_forall in E. specialize (E c Hc).
    now apply Nat.eqb_eq in E.
Qed.

Lemma entry_corr (df : DataFrame) (i j : nat) (x y : list R) :
  nth_error (real_columns df) i = Some x ->
  nth_error (real_columns df) j = Some y ->
  entry (corr df) i j = Some (pearson x y).
Proof.
  intros Hi Hj. unfold entry, corr.
  rewrite nth_error_map, Hi. cbn. now rewrite nth_error_map, Hj.
Qed.

Lemma shape_table {A B} (f : A -> A -> B) (cols l : list A) :
  shape (List.map (fun x => List.map (f x) cols) l)
  = repeat (length cols) (length l).
Proof.
  unfold shape. induction l as [|x l IH]; [reflexivity|].
  cbn [List.map length repeat]. rewrite IH. f_equal. apply length_map.
Qed.

Lemma shape_corr (df : DataFrame) :
  shape (corr df)
  = repeat (length (columns df)) (length (columns df)).
Proof.
  unfold corr. rewrite shape_table.
  unfold real_columns. now rewrite length_map.
Qed.

Lemma corr_entries (d : list (string * ndarray)) (df : DataFrame) :
  make_DataFrame d = Ok df ->
  length d = 9%nat ->
  Forall (fun x => sum_sq_dev x <> 0%R) (real_columns df) ->
  forall i j, (i < 9)%nat -> (j < 9)%nat ->
    exists r, entry (corr df) i j = Some (Some r)
              /\ entry (corr df) j i = Some (Some r)
              /\ (-1 <= r <= 1)%R
              /\ (i = j -> r = 1%R).
Proof.
  intros Hd L9 Hvar. apply make_DataFrame_inv in Hd as [Hc Hlen].
  intros i j Hi Hj.
  assert (length (real_columns df) = 9%nat) as LR
      by (unfold real_columns; now rewrite length_map, Hc).
  destruct (nth_error (real_columns df) i) as [x|] eqn:Ex;
    [|apply nth_error_None in Ex; lia].
  destruct (nth_error (real_columns df) j) as [y|] eqn:Ey;
    [|apply nth_error_None in Ey; lia].
  assert (forall k z, nth_error (real_columns df) k = Some z ->
                      length z = nrows df /\ sum_sq_dev z <> 0%R) as Col.
  { intros k z Hz. split.
    - unfold real_columns in Hz. rewrite nth_error_map in Hz.
      destruct (nth_error (columns df) k) as [c|] eqn:Ec;
        unfold ndarray in *; rewrite Ec in Hz; [|discriminate Hz].
      cbn in Hz. injection Hz as <-. rewrite length_map.
      rewrite Hc in Ec. apply nth_error_In in Ec.
      rewrite List.Forall_forall in Hlen. now apply Hlen.
    - rewrite List.Forall_forall in Hvar. apply Hvar.
      now apply nth_error_In with k. }
  destruct (Col i x Ex) as [Lx Vx]. destruct (Col j y Ey) as [Ly Vy].
  destruct (pearson_defined x y) as (r & Hxy & Hyx & Hr);
    [congruence | assumption | assumption |].
  exists r. rewrite (entry_corr df i j x y Ex Ey), (entry_corr df j i y x Ey Ex).
  rewrite Hxy, Hyx. repeat split; try apply Hr.
  intros <-. rewrite Ex in Ey. injection Ey as <-.
  rewrite pearson_diagonal in Hxy by assumption. now injection Hxy.
Qed.

(** C5. For every table of nine columns with at least two rows and no
    zero-variance column, the Pearson correlation matrix has nine rows of
    nine entries; every entry is a number in [-1, 1], the entries at (i, j)
    and (j, i) are equal, and every diagonal entry is 1. *)
Theorem corr_matrix_valid (d : list (string * ndarray)) (df : DataFrame) :
  make_DataFrame d = Ok df ->
  length d = 9%nat ->
  (2 <= nrows df)%nat ->
  Forall (fun x => sum_sq_dev x <> 0%R) (real_columns df) ->
  shape (corr df) = repeat 9%nat 9%nat
  /\ forall i j, (i < 9)%nat -> (j < 9)%nat ->
       exists r, entry (corr df) i j = Some (Some r)
                 /\ entry (corr df) j i = Some (Some r)
                 /\ (-1 <= r <= 1)%R
                 /\ (i = j -> r = 1%R).
Proof.
  intros Hd L9 _ Hvar. split.
  - apply make_DataFrame_inv in Hd as [Hc _]. now rewrite shape_corr, Hc, L9.
  - now apply (corr_entries d df).
Qed.

(** ** The mask and the heat map *)

Lemma nth_error_lookup {A} (l : list A) (i : nat) : nth_error l i = l !! i.
Proof.
  revert i. induction l as [|x l IH]; intros [|i]; try reflexivity. apply IH.
Qed.

Lemma nth_error_imap {A B} (f : nat -> A -> B) (l : list A) (i : nat) :
  nth_error (imap f l) i = option_map (f i) (nth_error l i).
Proof. rewrite !nth_error_lookup, list_lookup_imap. reflexivity. Qed.

(** The mask is [True] exactly on and above the diagonal. *)
Lemma entry_mask {A} (m : matrix A) (i j : nat) :
  entry (triu (ones_like m)) i j
  = option_map (fun _ => (i <=? j)%nat) (entry m i j).
Proof.
  unfold entry, triu, ones_like.
  rewrite nth_error_imap, nth_error_map.
  destruct (nth_error m i) as [row|]; [|reflexivity]. cbn.
  rewrite nth_error_imap, nth_error_map.
  destruct (nth_error row j); [|reflexivity]. cbn.
  now destruct (i <=? j)%nat.
Qed.

Lemma shape_mask {A} (m : matrix A) : shape (triu (ones_like m)) = shape m.
Proof.
  unfold shape, triu, ones_like.
  apply nth_error_ext. intros i.
  rewrite !nth_error_map, nth_error_imap, nth_error_map.
  destruct (nth_error m i) as [row|]; [|reflexivity]. cbn.
  now rewrite length_imap, length_map.
Qed.

Lemma in_shown_cells (data : matrix (option R)) (mask : matrix bool)
    (annot : bool) (fmt : string) (c : Cell) :
  In c (shown_cells data mask annot fmt)
  <-> exists i j r,
        entry data i j = Some (Some r)
        /\ entry mask i j = Some false
        /\ c = mkCell i j r (if annot then Some (fmt, r) else None).
Proof.
  unfold shown_cells. rewrite in_concat. split.
  - intros (cells & Hrow & Hc).
    apply list_elem_of_In, elem_of_lookup_imap in Hrow as (i & row & -> & Hi).
    apply list_elem_of_In, list_elem_of_omap in Hc as (oc & Hoc & Heq).
    apply elem_of_lookup_imap in Hoc as (j & v & -> & Hj).
    unfold shown_cell in Heq.
    destruct v as [r|]; [|discriminate].
    destruct (entry mask i j) as [[|]|] eqn:Em; try discriminate.
    injection Heq as <-. exists i, j, r.
    split; [|split; [exact Em | reflexivity]].
    unfold entry. now rewrite nth_error_lookup, Hi, nth_error_lookup.
  - intros (i & j & r & Hd & Hm & ->). unfold entry in Hd.
    destruct (nth_error data i) as [row|] eqn:Hi; [|discriminate].
    exists (omap (fun c => c) (imap (shown_cell mask annot fmt i) row)). split.
    + apply list_elem_of_In.
      apply (elem_of_lookup_imap_2
               (fun i row => omap (fun c => c)
                               (imap (shown_cell mask annot fmt i) row))).
      now rewrite <- nth_error_lookup.
    + apply list_elem_of_In, list_elem_of_omap.
      exists (shown_cell mask annot fmt i j (Some r)). split.
      * apply elem_of_lookup_imap_2. now rewrite <- nth_error_lookup.
      * unfold shown_cell. now rewrite Hm.
Qed.

Lemma heatmap_of_ok (df : DataFrame) :
  heatmap_of df
  = Ok (mkAxes (shown_cells (corr df) (triu (ones_like (corr df))) true ".2f")
               (-1, 1)%Q "YlGnBu" 0.8%Q "Pearson Correlation"
               "Customer Engagement Metric Correlation Matrix" 45 0).
Proof.
  unfold heatmap_of, heatmap. rewrite shape_mask.
  rewrite bool_decide_eq_true_2 by reflexivity. reflexivity.
Qed.


(** ** The canvas and the output file *)

Lemma render_writable (df : DataFrame) (w : World) :
  "chart.png"%string ∉ unwritable w ->
  render df w
  = Ok (mkWorld (<["chart.png"%string := Image PNG 512 512]> (files w))
                (unwritable w) (open_figures w)).
Proof.
  intros Hw. unfold render, subplots. rewrite heatmap_of_ok.
  unfold savefig. cbn [format_of_name extension_from unwritable fig_dpi].
  change (format_of_name "chart.png") with (Some PNG).
  rewrite bool_decide_eq_false_2 by exact Hw. reflexivity.
Qed.

Lemma render_unwritable (df : DataFrame) (w : World) :
  "chart.png"%string ∈ unwritable w -> render df w = Raise OSError.
Proof.
  intros Hw. unfold render, subplots. rewrite heatmap_of_ok.
  unfold savefig. cbn [unwritable fig_dpi].
  change (format_of_name "chart.png") with (Some PNG).
  rewrite bool_decide_eq_true_2 by exact Hw. reflexivity.
Qed.

(** C9. Whatever the table (so whatever the dataset size and the seed it
    was generated from), once rendering has completed the file [chart.png]
    exists, is a PNG image of exactly 512 by 512 pixels, and has replaced
    whatever was at that path; no other file has changed. *)
Theorem render_writes_png (df : DataFrame) (w w' : World) :
  render df w = Ok w' ->
  files w' !! "chart.png"%string = Some (Image PNG 512 512)
  /\ forall path, path <> "chart.png"%string ->
       files w' !! path = files w !! path.
Proof.
  intros H.
  destruct (decide ("chart.png"%string ∈ unwritable w)) as [Hu|Hu].
  - rewrite render_unwritable in H by exact Hu. discriminate.
  - rewrite render_writable in H by exact Hu. injection H as <-.
    cbn [files]. split.
    + apply lookup_insert_eq.
    + intros path Hp. apply lookup_insert_ne. congruence.
Qed.

(** The whole script: with its default arguments [main] writes the image
    whenever [chart.png] can be written. *)
Lemma main_writes_png {bitgen : Type} (seed_bitgen : Z -> bitgen)
    (next_standard_normal : bitgen -> Q * bitgen) (w : World) :
  "chart.png"%string ∉ unwritable w ->
  exists w', main seed_bitgen next_standard_normal w = Ok w'
             /\ files w' !! "chart.png"%string = Some (Image PNG 512 512).
Proof.
  intros Hw. unfold main. rewrite generate_stream by lia.
  rewrite render_writable by exact Hw. eexists. split; [reflexivity|].
  apply lookup_insert_eq.
Qed.

(** ** The properties on concrete inputs *)

Lemma sample_frame_varies :
  Forall (fun x => sum_sq_dev x <> 0%R) (real_columns sample_frame).
Proof.
  unfold real_columns, sample_frame, sample_columns. cbn [columns List.map snd].
  repeat (apply List.Forall_cons;
          [unfold sum_sq_dev, deviations, mean, dot, Rsum, Q2R;
           cbn [List.map map2 fold_right length INR Qnum Qden]; lra|]).
  apply List.Forall_nil.
Qed.


Lemma generate_within_bounds_witness :
  Forall column_within (columns (table_of_stream Lcg.next (Lcg.seed 42) 3)).
Proof.
  apply (generate_within_bounds Lcg.seed Lcg.next 3 42); [lia|].
  vm_compute. reflexivity.
Defined.

Lemma generate_shape_witness :
  nrows (table_of_stream Lcg.next (Lcg.seed 42) 3) = 3%nat
  /\ column_names (table_of_stream Lcg.next (Lcg.seed 42) 3) = column_labels.
Proof.
  destruct (generate_shape Lcg.seed Lcg.next 3 42) as [_ S]; [lia|].
  destruct (S (table_of_stream Lcg.next (Lcg.seed 42) 3)) as (R & N & _);
    [vm_compute; reflexivity|].
  split; [exact R | exact N].
Defined.

Lemma lifetime_value_formula_witness :
  exists pf aov,
    cell (table_of_stream Lcg.next (Lcg.seed 42) 2)
         "Purchase Frequency / Month" 1 = Some pf
    /\ cell (table_of_stream Lcg.next (Lcg.seed 42) 2)
            "Average Order Value ($)" 1 = Some aov
    /\ cell (table_of_stream Lcg.next (Lcg.seed 42) 2)
            "Customer Lifetime Value ($)" 1
       = Some (clip1 (Some 0) None
                 (200 + 80 * latent Lcg.next (Lcg.seed 42) 1 + 10 * pf
                  + 0.5 * aov + noise Lcg.next (Lcg.seed 42) 2 8 50 1)).
Proof.
  destruct (lifetime_value_formula Lcg.seed Lcg.next 2 42
              (table_of_stream Lcg.next (Lcg.seed 42) 2))
    with (i := 1%nat) as (pf & aov & Hp & Ha & _ & _ & Hc & _);
    [vm_compute; reflexivity | simpl; lia |].
  exists pf, aov. split; [exact Hp|]. split; [exact Ha | exact Hc].
Defined.

Lemma corr_matrix_valid_witness :
  shape (corr sample_frame) = repeat 9%nat 9%nat.
Proof.
  apply (corr_matrix_valid sample_columns sample_frame).
  - reflexivity.
  - reflexivity.
  - simpl. lia.
  - exact sample_frame_varies.
Defined.

Lemma generate_stage_order_witness :
  generate_body Lcg.next (PyInt 2) (Lcg.seed 42)
  = generate_staged Lcg.next (PyInt 2) (Lcg.seed 42).
Proof.
  apply (generate_stage_order Lcg.next 2 (Lcg.seed 42)). lia.
Defined.



Lemma render_writes_png_witness :
  files (mkWorld (<["chart.png"%string := Image PNG 512 512]>
                    (files sample_world)) ∅ 0)
    !! "chart.png"%string
  = Some (Image PNG 512 512).
Proof.
  apply (render_writes_png sample_frame sample_world).
  apply render_writable. cbn. apply not_elem_of_empty.
Defined.

Lemma generate_zero_customers_witness :
  Lcg.generate (PyInt 0) 42
  = Ok (mkDataFrame 0 (List.map (fun label => (label, [])) column_labels)).
Proof.
  apply (generate_zero_customers Lcg.seed Lcg.next 42). lia.
Defined.

(** C6, as stated, fails: computing the lifetime value last, after every
    other field, is not what the code does.  With the concrete generator,
    one customer and seed 42 the two orders give different tables. *)
Lemma two_stage_order_differs :
  Lcg.generate (PyInt 1) 42 <> Lcg.generate_two_stage (PyInt 1) 42.
Proof. vm_compute. intros H. discriminate H. Qed.


(** * Further properties *)

(** ** Outcomes of the generator *)

Section GeneratorOutcome.

Context {bitgen : Type}.
Variable seed_bitgen : Z -> bitgen.
Variable next_standard_normal : bitgen -> Q * bitgen.


End GeneratorOutcome.

(** X2. The table depends on the generator only through the first
    [10 * n] variates of its stream: two generators (of any kind, seeded in
    any way) whose streams agree on these positions give the same table. *)
Theorem generate_reads_first_variates {B1 B2 : Type}
    (seed1 : Z -> B1) (next1 : B1 -> Q * B1)
    (seed2 : Z -> B2) (next2 : B2 -> Q * B2) (n s1 s2 : Z) :
  (0 <= n)%Z -> (0 <= s1)%Z -> (0 <= s2)%Z ->
  (forall p, (p < 10 * Z.to_nat n)%nat ->
     variate next1 (seed1 s1) p = variate next2 (seed2 s2) p) ->
  generate_synthetic_customer_data seed1 next1 (PyInt n) s1
  = generate_synthetic_customer_data seed2 next2 (PyInt n) s2.
Proof.
  intros Hn H1 H2 E. rewrite !generate_stream by assumption. f_equal.
  set (k := Z.to_nat n) in *.
  unfold table_of_stream. f_equal.
  repeat (apply (f_equal2 cons); [f_equal; apply tabulate_ext; intros i Hi|]);
    try reflexivity;
    unfold clv_at, visits_at, session_at, pages_at, open_rate_at, ctr_at,
      purchase_at, order_value_at, nps_at, linear_field, noise, latent;
    rewrite ?(E i) by lia;
    rewrite ?(E (1 * k + i)%nat), ?(E (2 * k + i)%nat), ?(E (3 * k + i)%nat),
      ?(E (4 * k + i)%nat), ?(E (5 * k + i)%nat), ?(E (6 * k + i)%nat),
      ?(E (7 * k + i)%nat), ?(E (8 * k + i)%nat), ?(E (9 * k + i)%nat) by lia;
    reflexivity.
Qed.

(** ** Clamping *)

Lemma clip1_in_range (lo hi : option Q) (x : Q) :
  within (lo, hi) x -> clip1 lo hi x = x.
Proof.
  unfold within, clip1, Qmax, Qmin, GenericMinMax.gmax, GenericMinMax.gmin.
  cbn [fst snd]. intros [Hl Hh].
  assert (match lo with
          | Some l => match x ?= l with Lt => l | _ => x end
          | None => x
          end = x) as ->.
  { destruct lo as [l|]; [|reflexivity].
    destruct (x ?= l) eqn:E; try reflexivity.
    apply Qlt_alt in E. apply Qle_not_lt in Hl. contradiction. }
  destruct hi as [h|]; [|reflexivity].
  destruct (x ?= h) eqn:E; try reflexivity.
  apply Qgt_alt in E. apply Qle_not_lt in Hh. contradiction.
Qed.

Lemma clip1_below (l : Q) (hi : option Q) (x : Q) :
  x < l -> match hi with Some h => l <= h | None => True end ->
  clip1 (Some l) hi x = l.
Proof.
  unfold clip1, Qmax, Qmin, GenericMinMax.gmax, GenericMinMax.gmin.
  intros Hx Hh.
  assert ((x ?= l) = Lt) as E by (apply Qlt_alt; exact Hx). rewrite E.
  destruct hi as [h|]; [|reflexivity].
  destruct (l ?= h) eqn:E'; try reflexivity.
  apply Qgt_alt in E'. apply Qle_not_lt in Hh. contradiction.
Qed.

Lemma clip1_above (lo : option Q) (h x : Q) :
  h < x -> match lo with Some l => l <= h | None => True end ->
  clip1 lo (Some h) x = h.
Proof.
  unfold clip1, Qmax, Qmin, GenericMinMax.gmax, GenericMinMax.gmin.
  intros Hx Hl.
  assert (h < match lo with
              | Some l => match x ?= l with Lt => l | _ => x end
              | None => x
              end) as Hy.
  { destruct lo as [l|]; [|exact Hx].
    destruct (x ?= l) eqn:E; try exact Hx.
    apply Qlt_alt in E. apply Qle_lt_trans with x; [|exact E].
    apply Qlt_le_weak. exact Hx. }
  match type of Hy with _ < ?y => set (y0 := y) in * end.
  assert ((y0 ?= h) = Gt) as E by (apply Qgt_alt; exact Hy).
  now rewrite E.
Qed.

Section Clamping.

Context {bitgen : Type}.
Variable seed_bitgen : Z -> bitgen.
Variable next_standard_normal : bitgen -> Q * bitgen.

Lemma cell_table_of_stream (g : bitgen) (k i : nat) (label : string) :
  In label column_labels -> (i < k)%nat ->
  cell (table_of_stream next_standard_normal g k) label i
  = Some (clip1 (fst (clamp_interval label)) (snd (clamp_interval label))
            (unclamped next_standard_normal label g k i)).
Proof.
  intros Hl Hi. unfold cell, table_of_stream. cbn [columns].
  cbn [In column_labels] in Hl.
  repeat (destruct Hl as [<-|Hl];
          [cbn [assoc String.eqb Ascii.eqb Bool.eqb];
           rewrite nth_error_tabulate by exact Hi; reflexivity|]).
  destruct Hl.
Qed.

Lemma clamp_interval_ordered (label : string) (l h : Q) :
  clamp_interval label = (Some l, Some h) -> l <= h.
Proof.
  unfold clamp_interval.
  repeat match goal with
         | |- context [String.eqb ?a ?b] => destruct (String.eqb a b)
         end;
    intros [= <- <-] || discriminate; discriminate.
Qed.

(** X3. In a returned table every value is its unclamped formula when that
    already lies in the column's interval, the lower bound when the formula
    falls below it, and the upper bound when the formula exceeds it: the
    clamp changes out-of-range values only, and moves them to the nearest
    bound. *)
Theorem clamp_keeps_or_saturates (n seed : Z) (df : DataFrame)
    (label : string) (i : nat) :
  generate_synthetic_customer_data seed_bitgen next_standard_normal (PyInt n) seed
  = Ok df ->
  In label column_labels ->
  (i < Z.to_nat n)%nat ->
  let raw := unclamped next_standard_normal label (seed_bitgen seed)
               (Z.to_nat n) i in
  let lo := fst (clamp_interval label) in
  let hi := snd (clamp_interval label) in
  exists v,
    cell df label i = Some v
    /\ (within (lo, hi) raw -> v = raw)
    /\ (forall l, lo = Some l -> raw < l -> v = l)
    /\ (forall h, hi = Some h -> h < raw -> v = h).
Proof.
  intros H Hl Hi raw lo hi.
  unfold generate_synthetic_customer_data, default_rng in H.
  destruct (Z.ltb_spec seed 0); [discriminate|].
  destruct (Z.ltb_spec n 0) as [Hn|Hn].
  { unfold generate_body, bind, normal in H.
    destruct (Z.ltb_spec n 0); [discriminate | lia]. }
  rewrite generate_body_stream in H by exact Hn. injection H as <-.
  exists (clip1 lo hi raw). split; [now apply cell_table_of_stream|].
  assert (forall l h, lo = Some l -> hi = Some h -> l <= h) as Ord.
  { intros l h El Eh. apply (clamp_interval_ordered label).
    subst lo hi. destruct (clamp_interval label). cbn in *. congruence. }
  split; [apply clip1_in_range|]. split.
  - intros l El Hr. rewrite El. apply clip1_below; [exact Hr|].
    destruct hi as [h|] eqn:Eh; [|exact I]. now apply Ord.
  - intros h Eh Hr. rewrite Eh. apply clip1_above; [exact Hr|].
    destruct lo as [l|] eqn:El; [|exact I]. now apply Ord.
Qed.

End Clamping.

(** ** Undefined correlations *)

Section Degenerate.

Local Open Scope R_scope.

Lemma Rsum_constant (x : list R) (c : R) :
  (forall v, In v x -> v = c) -> Rsum x = INR (length x) * c.
Proof.
  induction x as [|a x IH]; intros H.
  - unfold Rsum. simpl. ring.
  - change (Rsum (a :: x)) with (a + Rsum x).
    change (length (a :: x)) with (S (length x)). rewrite S_INR.
    rewrite IH by (intros v Hv; apply H; now right).
    rewrite (H a) at 1 by now left. ring.
Qed.

Lemma dot_zero (a : list R) : (forall v, In v a -> v = 0) -> dot a a = 0.
Proof.
  induction a as [|v a IH]; intros H; [reflexivity|].
  rewrite dot_cons, IH by (intros u Hu; apply H; now right).
  rewrite (H v) by now left. ring.
Qed.

(** A column whose values are all equal has no spread. *)
Lemma sum_sq_dev_constant (x : list R) (c : R) :
  (forall v, In v x -> v = c) -> sum_sq_dev x = 0.
Proof.
  intros H. unfold sum_sq_dev. apply dot_zero.
  intros v Hv. unfold deviations in Hv.
  apply in_map_iff in Hv as (u & <- & Hu).
  destruct x as [|a x]; [destruct Hu|].
  unfold mean. rewrite (Rsum_constant (a :: x) c H), (H u Hu).
  field. apply not_0_INR. discriminate.
Qed.

Lemma sum_sq_dev_short (x : list R) : (length x <= 1)%nat -> sum_sq_dev x = 0.
Proof.
  intros L. destruct x as [|a [|b x]]; [reflexivity | | simpl in L; lia].
  apply (sum_sq_dev_constant [a] a). intros v [<-|[]]. reflexivity.
Qed.

Lemma pearson_undefined_l (x y : list R) :
  sum_sq_dev x = 0 -> pearson x y = None.
Proof.
  intros H. unfold pearson. rewrite H, Rmult_0_l, sqrt_0.
  destruct (Req_EM_T 0 0); [reflexivity | contradiction].
Qed.

Lemma pearson_undefined_r (x y : list R) :
  sum_sq_dev y = 0 -> pearson x y = None.
Proof.
  intros H. unfold pearson. rewrite H, Rmult_0_r, sqrt_0.
  destruct (Req_EM_T 0 0); [reflexivity | contradiction].
Qed.

End Degenerate.

Lemma nth_error_real_columns (df : DataFrame) (k : nat) :
  nth_error (real_columns df) k
  = option_map (fun c => List.map Q2R (snd c)) (nth_error (columns df) k).
Proof. unfold real_columns. apply nth_error_map. Qed.

Lemma entry_corr_defined (df : DataFrame) (i j : nat) :
  (i < length (columns df))%nat -> (j < length (columns df))%nat ->
  exists x y,
    nth_error (real_columns df) i = Some x
    /\ nth_error (real_columns df) j = Some y
    /\ entry (corr df) i j = Some (pearson x y).
Proof.
  intros Hi Hj.
  assert (length (real_columns df) = length (columns df)) as L
      by (unfold real_columns; apply length_map).
  destruct (nth_error (real_columns df) i) as [x|] eqn:Ex;
    [|apply nth_error_None in Ex; lia].
  destruct (nth_error (real_columns df) j) as [y|] eqn:Ey;
    [|apply nth_error_None in Ey; lia].
  exists x, y. split; [reflexivity|]. split; [reflexivity|].
  now apply entry_corr.
Qed.

Lemma entry_corr_in_range (df : DataFrame) (i j : nat) (v : option R) :
  entry (corr df) i j = Some v ->
  (i < length (columns df))%nat /\ (j < length (columns df))%nat.
Proof.
  intros H. unfold entry in H.
  destruct (nth_error (corr df) i) as [row|] eqn:Ei; [|discriminate].
  assert (length (corr df) = length (columns df)) as L
      by (unfold corr, real_columns; now rewrite !length_map).
  split.
  - rewrite <- L. apply nth_error_Some. congruence.
  - unfold corr in Ei. rewrite nth_error_map in Ei.
    destruct (nth_error (real_columns df) i); [|discriminate].
    injection Ei as <-. 
    assert (nth_error (List.map (fun y => pearson l y) (real_columns df)) j
            <> None) as N by congruence.
    apply nth_error_Some in N. rewrite length_map in N.
    unfold real_columns in N. now rewrite length_map in N.
Qed.

(** X4. When all the values of one column are equal, every correlation in
    that column's row and column of the matrix is NaN, its diagonal entry
    included, and a heat map of the table has no drawn cell in that row or
    column. *)
Theorem constant_column_undefined (df : DataFrame) (i : nat)
    (label : string) (a : ndarray) (c : Q) :
  nth_error (columns df) i = Some (label, a) ->
  (forall v, In v a -> v == c) ->
  (forall j, (j < length (columns df))%nat ->
     entry (corr df) i j = Some None /\ entry (corr df) j i = Some None)
  /\ forall ax, heatmap_of df = Ok ax ->
       forall cl, In cl (drawn ax) -> cell_row cl <> i /\ cell_col cl <> i.
Proof.
  intros Hi Hc.
  assert (i < length (columns df))%nat as Li
      by (apply nth_error_Some; congruence).
  assert (forall x, nth_error (real_columns df) i = Some x ->
                    sum_sq_dev x = 0%R) as Z.
  { intros x Hx. rewrite nth_error_real_columns in Hx.
    unfold ndarray in *. rewrite Hi in Hx. injection Hx as <-.
    apply (sum_sq_dev_constant _ (Q2R c)). intros v Hv.
    apply in_map_iff in Hv as (q & <- & Hq). apply Qreals.Qeq_eqR. now apply Hc. }
  assert (forall j, (j < length (columns df))%nat ->
            entry (corr df) i j = Some None /\ entry (corr df) j i = Some None)
    as Nan.
  { intros j Lj. split.
    - destruct (entry_corr_defined df i j Li Lj) as (x & y & Hx & _ & ->).
      now rewrite pearson_undefined_l by auto.
    - destruct (entry_corr_defined df j i Lj Li) as (y & x & _ & Hx & ->).
      now rewrite pearson_undefined_r by auto. }
  split; [exact Nan|].
  intros ax Hax. rewrite heatmap_of_ok in Hax. injection Hax as <-.
  cbn [drawn].
  intros cl Hcl. apply in_shown_cells in Hcl as (r & s & v & He & _ & ->).
  cbn [cell_row cell_col].
  destruct (entry_corr_in_range df r s _ He) as [Lr Ls].
  split; intros ->.
  - destruct (Nan s Ls) as [E _]. congruence.
  - destruct (Nan r Lr) as [_ E]. congruence.
Qed.

(** X5. A table with fewer than two rows has no defined correlation at all:
    every entry of its matrix is NaN and a heat map of it has no drawn
    cell. *)
Theorem short_table_blank (d : list (string * ndarray)) (df : DataFrame) :
  make_DataFrame d = Ok df ->
  (nrows df <= 1)%nat ->
  (forall i j, (i < length d)%nat -> (j < length d)%nat ->
     entry (corr df) i j = Some None)
  /\ forall ax, heatmap_of df = Ok ax -> drawn ax = [].
Proof.
  intros Hd Hn. apply make_DataFrame_inv in Hd as [Hc Hlen].
  assert (forall i j, (i < length d)%nat -> (j < length d)%nat ->
            entry (corr df) i j = Some None) as Nan.
  { intros i j Li Lj. rewrite <- Hc in Li, Lj.
    destruct (entry_corr_defined df i j Li Lj) as (x & y & Hx & _ & ->).
    rewrite pearson_undefined_l; [reflexivity|].
    apply sum_sq_dev_short.
    rewrite nth_error_real_columns in Hx.
    destruct (nth_error (columns df) i) as [cl|] eqn:E; [|discriminate].
    injection Hx as <-. rewrite length_map.
    rewrite Hc in E. apply nth_error_In in E.
    rewrite List.Forall_forall in Hlen. rewrite (Hlen cl E). exact Hn. }
  split; [exact Nan|].
  intros ax Hax. rewrite heatmap_of_ok in Hax. injection Hax as <-.
  cbn [drawn].
  destruct (shown_cells _ _ _ _) as [|cl rest] eqn:E; [reflexivity|].
  assert (In cl (shown_cells (corr df) (triu (ones_like (corr df))) true ".2f"))
    as Hcl by (rewrite E; now left).
  apply in_shown_cells in Hcl as (r & s & v & He & _).
  destruct (entry_corr_in_range df r s _ He) as [Lr Ls].
  rewrite Hc in Lr, Ls. rewrite (Nan r s Lr Ls) in He. discriminate.
Qed.

(** X6. Whatever the table, a drawn cell of its heat map is never on or
    above the diagonal and never holds NaN: it lies strictly below the
    diagonal, inside the matrix, holds the correlation of its position and
    shows it under the format [.2f]. *)
Theorem heatmap_never_upper_or_nan (df : DataFrame) (ax : Axes) :
  heatmap_of df = Ok ax ->
  forall c, In c (drawn ax) ->
    (cell_col c < cell_row c < length (columns df))%nat
    /\ entry (corr df) (cell_row c) (cell_col c) = Some (Some (cell_value c))
    /\ cell_annotation c = Some (".2f"%string, cell_value c).
Proof.
  intros Hax. rewrite heatmap_of_ok in Hax. injection Hax as <-. cbn [drawn].
  intros c Hc. apply in_shown_cells in Hc as (i & j & r & He & Hm & ->).
  cbn [cell_row cell_col cell_value cell_annotation].
  destruct (entry_corr_in_range df i j _ He) as [Li _].
  rewrite entry_mask, He in Hm. cbn in Hm. injection Hm as Hm.
  apply Nat.leb_gt in Hm. repeat split; try assumption.
Qed.

(** ** What the lower triangle shows *)

Lemma real_columns_regular (d : list (string * ndarray)) (df : DataFrame) :
  make_DataFrame d = Ok df ->
  Forall (fun x => length x = nrows df) (real_columns df).
Proof.
  intros Hd. apply make_DataFrame_inv in Hd as [Hc Hlen].
  unfold real_columns. rewrite Hc. clear Hc.
  induction Hlen as [|c l Hc _ IH]; cbn [List.map]; constructor.
  - now rewrite length_map.
  - exact IH.
Qed.

(** X7. Masking the upper triangle hides nothing: for a table of nine
    columns without a zero-variance column, the correlation of every pair of
    distinct columns, in either order, is the value of a drawn cell, the one
    at row [max i j] and column [min i j], and no other drawn cell has that
    position. *)
Theorem every_pair_shown_once (d : list (string * ndarray)) (df : DataFrame) :
  make_DataFrame d = Ok df ->
  length d = 9%nat ->
  Forall (fun x => sum_sq_dev x <> 0%R) (real_columns df) ->
  exists ax,
    heatmap_of df = Ok ax
    /\ forall i j, (i < 9)%nat -> (j < 9)%nat -> i <> j ->
         exists c,
           In c (drawn ax)
           /\ cell_row c = Nat.max i j /\ cell_col c = Nat.min i j
           /\ entry (corr df) i j = Some (Some (cell_value c))
           /\ forall c', In c' (drawn ax) ->
                cell_row c' = cell_row c -> cell_col c' = cell_col c -> c' = c.
Proof.
  intros Hd L9 Hvar.
  eexists. split; [apply heatmap_of_ok|]. cbn [drawn].
  intros i j Hi Hj Hij.
  set (a := Nat.max i j). set (b := Nat.min i j).
  assert (b < a /\ a < 9)%nat as [Hba Ha] by lia.
  destruct (corr_entries d df Hd L9 Hvar a b) as (r & Hab & Hba' & _); [lia..|].
  exists (mkCell a b r (Some (".2f"%string, r))).
  cbn [cell_row cell_col cell_value].
  split; [|split; [reflexivity|split; [reflexivity|split]]].
  - apply in_shown_cells. exists a, b, r. split; [exact Hab|].
    split; [|reflexivity]. rewrite entry_mask, Hab. cbn. f_equal.
    apply Nat.leb_gt. exact Hba.
  - destruct (Nat.lt_ge_cases i j).
    + replace i with b by lia. replace j with a by lia. exact Hba'.
    + replace i with a by lia. replace j with b by lia. exact Hab.
  - intros c' Hc' Hr Hcl.
    apply in_shown_cells in Hc' as (i' & j' & r' & He & _ & ->).
    cbn in Hr, Hcl. subst i' j'. rewrite Hab in He. now injection He as <-.
Qed.

(** X8. For a table of nine columns without a zero-variance column the
    heat map draws exactly 36 cells, one for each pair of distinct
    columns. *)
Theorem drawn_cell_count (d : list (string * ndarray)) (df : DataFrame) :
  make_DataFrame d = Ok df ->
  length d = 9%nat ->
  Forall (fun x => sum_sq_dev x <> 0%R) (real_columns df) ->
  exists ax, heatmap_of df = Ok ax /\ length (drawn ax) = 36%nat.
Proof.
  intros Hd L9 Hvar.
  eexists. split; [apply heatmap_of_ok|]. cbn [drawn].
  pose proof (real_columns_regular d df Hd) as Hlen.
  assert (length (real_columns df) = 9%nat) as LR.
  { apply make_DataFrame_inv in Hd as [Hc _].
    unfold real_columns. now rewrite length_map, Hc. }
  unfold corr. destruct (real_columns df) as [|c0 [|c1 [|c2 [|c3 [|c4 [|c5
    [|c6 [|c7 [|c8 [|c9 rest]]]]]]]]]]; try discriminate LR. clear LR.
  set (cols := [c0; c1; c2; c3; c4; c5; c6; c7; c8]) in *.
  assert (forall x y, In x cols -> In y cols ->
            exists r, pearson x y = Some r) as P.
  { intros x y Hx Hy. rewrite List.Forall_forall in Hvar, Hlen.
    destruct (pearson_defined x y) as (r & Hr & _); eauto.
    rewrite (Hlen x Hx), (Hlen y Hy). reflexivity. }
  subst cols. cbn [List.map].
  repeat match goal with
         | |- context [pearson ?x ?y] =>
             let r := fresh "r" in
             destruct (P x y) as [r ->]; [cbn; tauto | cbn; tauto |]
         end.
  reflexivity.
Qed.

(** ** The whole script *)

(** X9. With its default arguments [main] succeeds exactly when
    [chart.png] can be written, whatever the bit generator: it then leaves a
    PNG of 512 by 512 pixels at that path and changes nothing else (no other
    file, no figure left open); otherwise it raises [OSError]. *)
Theorem main_outcome {bitgen : Type} (seed_bitgen : Z -> bitgen)
    (next_standard_normal : bitgen -> Q * bitgen) (w : World) :
  main seed_bitgen next_standard_normal w
  = if bool_decide ("chart.png"%string ∈ unwritable w) then Raise OSError
    else Ok (mkWorld (<["chart.png"%string := Image PNG 512 512]> (files w))
                     (unwritable w) (open_figures w)).
Proof.
  unfold main. rewrite generate_stream by lia.
  destruct (decide ("chart.png"%string ∈ unwritable w)) as [Hu|Hu].
  - rewrite bool_decide_eq_true_2 by exact Hu. now apply render_unwritable.
  - rewrite bool_decide_eq_false_2 by exact Hu. now apply render_writable.
Qed.

(** X10. The figure is released only after a successful write.  When
    [chart.png] cannot be written, rendering raises [OSError] with every
    file unchanged and the figure it opened still open; when it can, the
    number of open figures is the same after rendering as before. *)
Theorem figure_closed_only_on_success (df : DataFrame) (ax : Axes) (w : World) :
  heatmap_of df = Ok ax ->
  ("chart.png"%string ∈ unwritable w ->
     render df w = Raise OSError
     /\ render_run df w
        = (mkWorld (files w) (unwritable w) (S (open_figures w)), Some OSError))
  /\ ("chart.png"%string ∉ unwritable w ->
        exists w', render df w = Ok w'
                   /\ render_run df w = (w', None)
                   /\ open_figures w' = open_figures w).
Proof.
  intros Hax. split; intros Hu.
  - split; [now apply render_unwritable|].
    unfold render_run, subplots. rewrite Hax.
    unfold savefig. cbn [unwritable fig_dpi].
    change (format_of_name "chart.png") with (Some PNG).
    rewrite bool_decide_eq_true_2 by exact Hu. reflexivity.
  - eexists. split; [now apply render_writable|].
    unfold render_run, subplots. rewrite Hax.
    unfold savefig. cbn [unwritable fig_dpi].
    change (format_of_name "chart.png") with (Some PNG).
    rewrite bool_decide_eq_false_2 by exact Hu. split; reflexivity.
Qed.

(** ** The further properties on concrete inputs *)

Lemma sample_frame_cell :
  exists r,
    In (mkCell 1 0 r (Some (".2f"%string, r)))
       (shown_cells (corr sample_frame) (triu (ones_like (corr sample_frame)))
                    true ".2f").
Proof.
  destruct (corr_entries sample_columns sample_frame eq_refl eq_refl
              sample_frame_varies 1 0) as (r & Hr & _); [lia..|].
  exists r. apply in_shown_cells. exists 1%nat, 0%nat, r.
  split; [exact Hr|]. split; [|reflexivity]. now rewrite entry_mask, Hr.
Qed.

Lemma generate_reads_first_variates_witness :
  Lcg.generate (PyInt 2) 42 = Lcg.generate (PyInt 2) 2147483690.
Proof.
  apply (generate_reads_first_variates Lcg.seed Lcg.next Lcg.seed Lcg.next
           2 42 2147483690); [lia | lia | lia |].
  intros p _. reflexivity.
Defined.

Lemma clamp_keeps_or_saturates_witness :
  exists v,
    cell (table_of_stream Lcg.next (Lcg.seed 42) 2) "Email CTR" 0 = Some v
    /\ v = 0.
Proof.
  destruct (clamp_keeps_or_saturates Lcg.seed Lcg.next 2 42
              (table_of_stream Lcg.next (Lcg.seed 42) 2) "Email CTR" 0)
    as (v & Hc & _ & Hlow & _).
  - vm_compute. reflexivity.
  - cbn. tauto.
  - simpl. lia.
  - exists v. split; [exact Hc|]. apply Hlow; [reflexivity|].
    vm_compute. reflexivity.
Defined.

Lemma constant_column_undefined_witness :
  entry (corr (table_of_stream Lcg.next (Lcg.seed 42) 2)) 4 4 = Some None.
Proof.
  destruct (constant_column_undefined
              (table_of_stream Lcg.next (Lcg.seed 42) 2) 4 "Email CTR"
              (tabulate (ctr_at Lcg.next (Lcg.seed 42) 2) 2) 0)
    as [N _].
  - reflexivity.
  - intros v Hv. vm_compute in Hv.
    destruct Hv as [<-|[<-|[]]]; reflexivity.
  - apply (N 4%nat). simpl. lia.
Defined.

Lemma short_table_blank_witness :
  entry (corr (table_of_stream Lcg.next (Lcg.seed 42) 1)) 0 1 = Some None.
Proof.
  destruct (short_table_blank
              (columns (table_of_stream Lcg.next (Lcg.seed 42) 1))
              (table_of_stream Lcg.next (Lcg.seed 42) 1)) as [N _].
  - vm_compute. reflexivity.
  - simpl. lia.
  - apply N; simpl; lia.
Defined.

Lemma heatmap_never_upper_or_nan_witness :
  exists c,
    In c (shown_cells (corr sample_frame) (triu (ones_like (corr sample_frame)))
                      true ".2f")
    /\ (cell_col c < cell_row c < 9)%nat.
Proof.
  destruct sample_frame_cell as [r Hr].
  exists (mkCell 1 0 r (Some (".2f"%string, r))). split; [exact Hr|].
  apply (heatmap_never_upper_or_nan sample_frame _ (heatmap_of_ok sample_frame)).
  exact Hr.
Defined.

Lemma every_pair_shown_once_witness :
  exists ax,
    heatmap_of sample_frame = Ok ax
    /\ exists c, In c (drawn ax) /\ cell_row c = 3%nat /\ cell_col c = 1%nat.
Proof.
  destruct (every_pair_shown_once sample_columns sample_frame)
    as (ax & H & P); [reflexivity | reflexivity | exact sample_frame_varies |].
  exists ax. split; [exact H|].
  destruct (P 1%nat 3%nat) as (c & Hc & Hr & Hcl & _); [lia | lia | lia |].
  exists c. split; [exact Hc|]. split; [exact Hr | exact Hcl].
Defined.

Lemma drawn_cell_count_witness :
  exists ax, heatmap_of sample_frame = Ok ax /\ length (drawn ax) = 36%nat.
Proof.
  apply (drawn_cell_count sample_columns sample_frame);
    [reflexivity | reflexivity | exact sample_frame_varies].
Defined.

Lemma figure_closed_only_on_success_witness :
  render_run sample_frame locked_world
  = (mkWorld (files locked_world) (unwritable locked_world) 1, Some OSError)
  /\ exists w', render_run sample_frame sample_world = (w', None)
                /\ open_figures w' = 0%nat.
Proof.
  destruct (figure_closed_only_on_success sample_frame _ locked_world
              (heatmap_of_ok sample_frame)) as [F _].
  destruct (figure_closed_only_on_success sample_frame _ sample_world
              (heatmap_of_ok sample_frame)) as [_ S].
  split.
  - apply F. cbn. apply elem_of_singleton. reflexivity.
  - destruct S as (w' & _ & Hr & Ho); [cbn; apply not_elem_of_empty|].
    exists w'. split; [exact Hr | exact Ho].
Defined.
